(** * A 2-D geometric-algebra toolkit: [geometric_algebra_minimal_2D.py]

    The Python module works on SymPy column matrices whose entries are exact
    numbers.  SymPy keeps every rational in lowest terms, so two equal numbers
    are the same object up to structure; the canonical rationals [Qc] of the
    Standard Library have the same property (Leibniz equality), and are the
    scalar type of the main development.  SymPy matrices also hold [Float]
    entries, which round every operation to 53 bits; the same module is
    embedded a second time over such entries in [FloatEntries], to show where
    an equation that is exact on rationals is lost to rounding.  Symbolic
    entries are outside both.

    The functions of the module raise Python exceptions; they are embedded in
    a small exception monad [result]. *)

From Stdlib Require Import QArith Qcanon Field.
From Stdlib Require Import List String Ascii Bool Arith Lia.
From Stdlib Require Import DecimalString DecimalNat Decimal.
From Stdlib Require Import ZArith SpecFloat.
Import ListNotations.

Set Implicit Arguments.

(* Numerals are natural numbers unless marked; scalars are written in
   [Qc_scope]. *)
Open Scope nat_scope.

(** ** Exceptions *)

(** The exceptions that can leave the module.  [ValueError] and
    [ZeroDivisionError] are raised by the module itself and carry its message;
    [IndexError] and [ShapeError] are SymPy's own, raised by indexing and by
    [Matrix.dot] on operands they do not accept. *)
Inductive exn : Type :=
| ValueError (msg : string)
| ZeroDivisionError (msg : string)
| IndexError
| ShapeError.

Inductive result (A : Type) : Type :=
| Ok (a : A)
| Raise (e : exn).

Arguments Ok {A} a.
Arguments Raise {A} e.

Definition bind {A B : Type} (m : result A) (k : A -> result B) : result B :=
  match m with
  | Ok a => k a
  | Raise e => Raise e
  end.

Declare Scope py_scope.
Delimit Scope py_scope with py.
Notation "x <- m ;; k" := (bind m (fun x => k))
  (at level 100, m at next level, right associativity) : py_scope.
Notation "m ;; k" := (bind m (fun _ => k))
  (at level 100, right associativity) : py_scope.
Open Scope py_scope.

(** The two error kinds in the vocabulary of the specification. *)
Definition InvalidShape {A : Type} (r : result A) : Prop :=
  exists msg, r = Raise (ValueError msg).

Definition DivisionByZero {A : Type} (r : result A) : Prop :=
  exists msg, r = Raise (ZeroDivisionError msg).

(** ** Scalars *)

(** [sp.Integer(z)] and [sp.Rational(p, q)]. *)
Definition Integer (z : Z) : Qc := Q2Qc (inject_Z z).
Definition Rational (p : Z) (q : positive) : Qc := Q2Qc (p # q).

(** ** SymPy dense matrices *)

Module Matrix.

(** A dense matrix: its shape and its entries in row-major order, as SymPy
    stores them. *)
Record t : Type := mk { rows : nat; cols : nat; flat : list Qc }.

Definition shape (m : t) : nat * nat := (rows m, cols m).

(** [len(m)] *)
Definition len (m : t) : nat := rows m * cols m.

(** The invariant of every matrix SymPy builds. *)
Definition well_formed (m : t) : Prop := List.length (flat m) = len m.

(** [Matrix([x0, x1, ...])]: a flat list gives a column, the empty list
    the empty matrix of shape [(0, 0)]. *)
Definition of_list (l : list Qc) : t :=
  match l with
  | [] => mk 0 0 []
  | _ :: _ => mk (List.length l) 1 l
  end.

(** [Matrix([[x0, x1, ...]])]: one inner list gives a row. *)
Definition of_row (l : list Qc) : t := mk 1 (List.length l) l.

(** [m[i]] for a non-negative integer index [i]. *)
Definition getitem (m : t) (i : nat) : result Qc :=
  match nth_error (flat m) i with
  | Some x => Ok x
  | None => Raise IndexError
  end.

(** [s * m] *)
Definition rmul (s : Qc) (m : t) : t :=
  mk (rows m) (cols m) (map (fun x => s * x)%Qc (flat m)).

(** [m * s] *)
Definition mul (m : t) (s : Qc) : t :=
  mk (rows m) (cols m) (map (fun x => x * s)%Qc (flat m)).

(** [m / s], which SymPy computes as [m * (1 / s)]. *)
Definition truediv (m : t) (s : Qc) : t := mul m (1 / s)%Qc.

Definition shape_eqb (s1 s2 : nat * nat) : bool :=
  Nat.eqb (fst s1) (fst s2) && Nat.eqb (snd s1) (snd s2).

(** [m1 + m2] *)
Fixpoint zip_with (f : Qc -> Qc -> Qc) (l1 l2 : list Qc) : list Qc :=
  match l1, l2 with
  | x :: l1', y :: l2' => f x y :: zip_with f l1' l2'
  | _, _ => []
  end.

Definition add (m1 m2 : t) : result t :=
  if shape_eqb (shape m1) (shape m2)
  then Ok (mk (rows m1) (cols m1) (zip_with Qcplus (flat m1) (flat m2)))
  else Raise ShapeError.

(** [-m], which SymPy computes as [m * (-1)], and [m1 - m2], which it
    computes as [m1 + (-m2)]. *)
Definition neg (m : t) : t := mul m (- (1))%Qc.

Definition sub (m1 m2 : t) : result t := add m1 (neg m2).

(** Sum of a list of terms, left to right, as the matrix product adds the
    terms of one entry. *)
Definition sum (l : list Qc) : Qc :=
  match l with
  | [] => 0%Qc
  | x :: l' => fold_left Qcplus l' x
  end.

(** [a.dot(b)]: both operands must be a row or a column, of the same
    length; the result is the only entry of the product of [a] reshaped to
    a row and [b] reshaped to a column. *)
Definition dot (a b : t) : result Qc :=
  if negb (Nat.eqb (rows a) 1 || Nat.eqb (cols a) 1)
     || negb (Nat.eqb (rows b) 1 || Nat.eqb (cols b) 1)
  then Raise ShapeError
  else if negb (Nat.eqb (len a) (len b))
  then Raise ShapeError
  else Ok (sum (zip_with Qcmult (flat a) (flat b))).

End Matrix.

(** [Vector: TypeAlias = Matrix] *)
Definition Vector : Type := Matrix.t.

(** ** Printing a shape *)

(** [repr(n)] for a non-negative Python integer. *)
Definition repr_nat (n : nat) : string :=
  NilEmpty.string_of_uint (Nat.to_uint n).

(** [repr(v.shape)], the [repr] of a 2-tuple of integers. *)
Definition repr_shape (s : nat * nat) : string :=
  ("(" ++ repr_nat (fst s) ++ ", " ++ repr_nat (snd s) ++ ")")%string.

(** ** The module *)

(** Ensure [v] is a 2-D column vector. *)
Definition _validate_vector (v : Vector) : result unit :=
  if negb (Matrix.shape_eqb (Matrix.shape v) (2, 1)) then
    let msg := ("Expected a 2-D column vector, got shape "
                  ++ repr_shape (Matrix.shape v))%string in
    Raise (ValueError msg)
  else Ok tt.

(** Return the Euclidean (inner) product of two 2-D column vectors. *)
Definition dot (a b : Vector) : result Qc :=
  _validate_vector a ;;
  _validate_vector b ;;
  Matrix.dot a b.

(** Return the 2-D exterior (wedge) product of two vectors. *)
Definition wedge (a b : Vector) : result Qc :=
  _validate_vector a ;;
  _validate_vector b ;;
  a0 <- Matrix.getitem a 0 ;;
  b1 <- Matrix.getitem b 1 ;;
  a1 <- Matrix.getitem a 1 ;;
  b0 <- Matrix.getitem b 0 ;;
  Ok (a0 * b1 - a1 * b0)%Qc.

(** Simulate the geometric product of two vectors. *)
Definition geometric_prod_vec (a b : Vector) : result Qc :=
  d <- dot a b ;;
  w <- wedge a b ;;
  Ok (d + w)%Qc.

(** Orthogonally project [u] onto [v].  The divisor [vv] is non-zero where
    the division is reached. *)
Definition project (u v : Vector) : result Vector :=
  vv <- dot u v ;;
  if Qc_eq_bool vv 0%Qc then
    Raise (ZeroDivisionError "Cannot project onto the zero vector.")
  else
    d <- dot u v ;;
    Ok (Matrix.truediv (Matrix.rmul d u) vv).

(** The rejection in 2-D.  The last line rotates [u] by a quarter turn to
    [(-u[1], u[0])] and scales it. *)
Definition reject (x u : Vector) : result Vector :=
  uu <- dot u u ;;
  if Qc_eq_bool uu 0%Qc then
    Raise (ZeroDivisionError "Cannot reject about the zero vector.")
  else
    w <- wedge x u ;;
    let scalar := (w / uu)%Qc in
    u1 <- Matrix.getitem u 1 ;;
    u0 <- Matrix.getitem u 0 ;;
    Ok (Matrix.mul (Matrix.of_list [(- u1)%Qc; u0]) scalar).

(** What [main] computes before it prints. *)
Record demo : Type := mk_demo {
  demo_u : Vector;
  demo_v : Vector;
  proj : Vector;
  rej : Vector;
  uv_scalar : Qc;
  uv_bivector : Qc
}.

Definition main : result demo :=
  let e1 := Matrix.of_list [Integer 1; Integer 0] in
  let e2 := Matrix.of_list [Integer 0; Integer 1] in
  u <- Matrix.add (Matrix.rmul (Integer 4) e1) (Matrix.rmul (Integer 2) e2) ;;
  v <- Matrix.add (Matrix.rmul (Integer 3) e1) (Matrix.rmul (Integer 3) e2) ;;
  proj <- project u v ;;
  rej <- reject u v ;;
  uv_scalar <- dot u v ;;
  uv_bivector <- wedge u v ;;
  Ok (mk_demo u v proj rej uv_scalar uv_bivector).

(** ** The textbook rejection *)

(** The rejection of [x] from [u] as the specification words it: [x] minus
    the orthogonal projection [(dot(x,u) / dot(u,u)) * u].  It is not part
    of the module; [reject] is compared with it below. *)
Definition standard_rejection (x u : Vector) : result Vector :=
  xu <- dot x u ;;
  uu <- dot u u ;;
  Matrix.sub x (Matrix.rmul (xu / uu)%Qc u).

(** ** 2-D column vectors *)

(** [Matrix([a, b])] *)
Definition vec2 (a b : Qc) : Vector := Matrix.of_list [a; b].

(** A 2-D column vector: a matrix SymPy can build, of shape [(2, 1)]. *)
Definition is_vector (v : Vector) : Prop :=
  Matrix.well_formed v /\ Matrix.shape v = (2, 1).

(** The [i]-th coordinate of a vector, for stating results. *)
Definition coord (v : Vector) (i : nat) : Qc := nth i (Matrix.flat v) 0%Qc.

(** The 2-D zero vector. *)
Definition is_zero_vector (u : Vector) : Prop :=
  is_vector u /\ Forall (fun c => c = 0%Qc) (Matrix.flat u).

(** The exception [_validate_vector] raises on [v]. *)
Definition shape_error (v : Vector) : exn :=
  ValueError ("Expected a 2-D column vector, got shape "
                ++ repr_shape (Matrix.shape v))%string.

(** ** The module over [Float] entries *)

(** SymPy's [Float] at its default precision: a significand of 53 bits,
    every operation rounded to nearest, ties to even.  On the values used
    below this is IEEE binary64 arithmetic, taken from the Standard
    Library's executable specification of it.  The functions of the module
    are the same source lines as above; only the arithmetic of the entries
    differs. *)
Module FloatEntries.

Definition Float : Type := spec_float.

Definition prec : Z := 53%Z.
Definition emax : Z := 1024%Z.

(** [Float(z)] for an integer [z] below [2^53] in absolute value. *)
Definition of_Z (z : Z) : Float := binary_normalize prec emax z 0%Z false.

Definition fadd : Float -> Float -> Float := SFadd prec emax.
Definition fsub : Float -> Float -> Float := SFsub prec emax.
Definition fmul : Float -> Float -> Float := SFmul prec emax.
Definition fdiv : Float -> Float -> Float := SFdiv prec emax.
Definition fopp : Float -> Float := SFopp.

(** [x == 0] *)
Definition is_zero (x : Float) : bool := SFeqb x (of_Z 0%Z).

(** The Python float literal with the decimal value [p / q], for instance
    [0.1] is [decimal 1 10]: the float nearest to the quotient. *)
Definition decimal (p q : Z) : Float := fdiv (of_Z p) (of_Z q).

Module Matrix.

Record t : Type := mk { rows : nat; cols : nat; flat : list Float }.

Definition shape (m : t) : nat * nat := (rows m, cols m).

Definition len (m : t) : nat := rows m * cols m.

Definition well_formed (m : t) : Prop := List.length (flat m) = len m.

(** [Matrix([x0, x1, ...])] *)
Definition of_list (l : list Float) : t :=
  match l with
  | [] => mk 0 0 []
  | _ :: _ => mk (List.length l) 1 l
  end.

(** [m[i]] *)
Definition getitem (m : t) (i : nat) : result Float :=
  match nth_error (flat m) i with
  | Some x => Ok x
  | None => Raise IndexError
  end.

(** [s * m] *)
Definition rmul (s : Float) (m : t) : t :=
  mk (rows m) (cols m) (map (fun x => fmul s x) (flat m)).

(** [m * s] *)
Definition mul (m : t) (s : Float) : t :=
  mk (rows m) (cols m) (map (fun x => fmul x s) (flat m)).

(** [m / s], computed as [m * (1 / s)]. *)
Definition truediv (m : t) (s : Float) : t := mul m (fdiv (of_Z 1%Z) s).

Definition shape_eqb (s1 s2 : nat * nat) : bool :=
  Nat.eqb (fst s1) (fst s2) && Nat.eqb (snd s1) (snd s2).

Fixpoint zip_with (f : Float -> Float -> Float) (l1 l2 : list Float)
  : list Float :=
  match l1, l2 with
  | x :: l1', y :: l2' => f x y :: zip_with f l1' l2'
  | _, _ => []
  end.

(** [m1 + m2] *)
Definition add (m1 m2 : t) : result t :=
  if shape_eqb (shape m1) (shape m2)
  then Ok (mk (rows m1) (cols m1) (zip_with fadd (flat m1) (flat m2)))
  else Raise ShapeError.

(** [-m], computed as [m * (-1)]. *)
Definition neg (m : t) : t := mul m (of_Z (-1)%Z).

Definition sum (l : list Float) : Float :=
  match l with
  | [] => of_Z 0%Z
  | x :: l' => fold_left fadd l' x
  end.

(** [a.dot(b)] *)
Definition dot (a b : t) : result Float :=
  if negb (Nat.eqb (rows a) 1 || Nat.eqb (cols a) 1)
     || negb (Nat.eqb (rows b) 1 || Nat.eqb (cols b) 1)
  then Raise ShapeError
  else if negb (Nat.eqb (len a) (len b))
  then Raise ShapeError
  else Ok (sum (zip_with fmul (flat a) (flat b))).

End Matrix.

Definition Vector : Type := Matrix.t.

Definition _validate_vector (v : Vector) : result unit :=
  if negb (Matrix.shape_eqb (Matrix.shape v) (2, 1)) then
    let msg := ("Expected a 2-D column vector, got shape "
                  ++ repr_shape (Matrix.shape v))%string in
    Raise (ValueError msg)
  else Ok tt.

Definition dot (a b : Vector) : result Float :=
  _validate_vector a ;;
  _validate_vector b ;;
  Matrix.dot a b.

Definition wedge (a b : Vector) : result Float :=
  _validate_vector a ;;
  _validate_vector b ;;
  a0 <- Matrix.getitem a 0 ;;
  b1 <- Matrix.getitem b 1 ;;
  a1 <- Matrix.getitem a 1 ;;
  b0 <- Matrix.getitem b 0 ;;
  Ok (fsub (fmul a0 b1) (fmul a1 b0)).

Definition geometric_prod_vec (a b : Vector) : result Float :=
  d <- dot a b ;;
  w <- wedge a b ;;
  Ok (fadd d w).

Definition project (u v : Vector) : result Vector :=
  vv <- dot u v ;;
  if is_zero vv then
    Raise (ZeroDivisionError "Cannot project onto the zero vector.")
  else
    d <- dot u v ;;
    Ok (Matrix.truediv (Matrix.rmul d u) vv).

Definition reject (x u : Vector) : result Vector :=
  uu <- dot u u ;;
  if is_zero uu then
    Raise (ZeroDivisionError "Cannot reject about the zero vector.")
  else
    w <- wedge x u ;;
    let scalar := fdiv w uu in
    u1 <- Matrix.getitem u 1 ;;
    u0 <- Matrix.getitem u 0 ;;
    Ok (Matrix.mul (Matrix.of_list [fopp u1; u0]) scalar).

(** [Matrix([a, b])] *)
Definition vec2 (a b : Float) : Vector := Matrix.of_list [a; b].

Definition is_vector (v : Vector) : Prop :=
  Matrix.well_formed v /\ Matrix.shape v = (2, 1).

End FloatEntries.

(** ** Decimal digits *)

(** The characters ['0'] to ['9'], of which the [repr] of a non-negative
    integer is made. *)
Definition is_digit (c : ascii) : bool :=
  (48 <=? nat_of_ascii c) && (nat_of_ascii c <=? 57).

Fixpoint all_digits (s : string) : bool :=
  match s with
  | EmptyString => true
  | String c s' => is_digit c && all_digits s'
  end.

(** ** Basic facts *)

Lemma is_vector_vec2 (a b : Qc) : is_vector (vec2 a b).
Proof. split; reflexivity. Qed.

Lemma is_vector_inv (v : Vector) :
  is_vector v -> v = vec2 (coord v 0) (coord v 1).
Proof.
  destruct v as [r c l]; unfold is_vector, Matrix.well_formed, Matrix.shape,
    Matrix.len, coord; simpl.
  intros [Hlen Hshape]. injection Hshape as -> ->. simpl in Hlen.
  destruct l as [|a [|b [|x l]]]; try discriminate. reflexivity.
Qed.

Lemma is_zero_vector_inv (u : Vector) :
  is_zero_vector u -> u = vec2 0%Qc 0%Qc.
Proof.
  intros [Hv Hz]. pose proof (is_vector_inv Hv) as E.
  rewrite E in Hz; simpl in Hz.
  inversion Hz as [|c l Ha Hl]; subst c l. inversion Hl as [|c l Hb _]; subst c l.
  rewrite E, Ha, Hb. reflexivity.
Qed.

Lemma shape_eqb_spec (s1 s2 : nat * nat) :
  Matrix.shape_eqb s1 s2 = true <-> s1 = s2.
Proof.
  destruct s1 as [r1 c1], s2 as [r2 c2]; unfold Matrix.shape_eqb; simpl.
  rewrite andb_true_iff, !Nat.eqb_eq. split.
  - intros [-> ->]; reflexivity.
  - intros H; injection H; auto.
Qed.

Lemma validate_vec2 (a b : Qc) : _validate_vector (vec2 a b) = Ok tt.
Proof. reflexivity. Qed.

Lemma dot_vec2 (a0 a1 b0 b1 : Qc) :
  dot (vec2 a0 a1) (vec2 b0 b1) = Ok (a0 * b0 + a1 * b1)%Qc.
Proof. reflexivity. Qed.

Lemma wedge_vec2 (a0 a1 b0 b1 : Qc) :
  wedge (vec2 a0 a1) (vec2 b0 b1) = Ok (a0 * b1 - a1 * b0)%Qc.
Proof. reflexivity. Qed.

Lemma Qc_eq_bool_true_iff (x y : Qc) : Qc_eq_bool x y = true <-> x = y.
Proof.
  split; [apply Qc_eq_bool_correct|].
  intros ->. unfold Qc_eq_bool. destruct (Qc_eq_dec y y); congruence.
Qed.

Lemma Qc_square_nonneg (x : Qc) : (0 <= x * x)%Qc.
Proof.
  unfold Qcle, Qcmult.
  change (this (Q2Qc (x * x))) with (Qred (x * x)).
  rewrite Qred_correct.
  destruct x as [[n d] Hc]; unfold Qle, Qmult; simpl. nia.
Qed.

Lemma Qc_eq_bool_false_iff (x y : Qc) : Qc_eq_bool x y = false <-> x <> y.
Proof.
  rewrite <- Qc_eq_bool_true_iff. destruct (Qc_eq_bool x y); split; congruence.
Qed.

Lemma Ok_inj (A : Type) (x y : A) : Ok x = Ok y -> x = y.
Proof. congruence. Qed.

Lemma is_vector_cases (v : Vector) :
  is_vector v -> exists a b, v = vec2 a b.
Proof. intros H; rewrite (is_vector_inv H); eauto. Qed.

(** Replaces a vector [v] known by [H : is_vector v] by [vec2 a b]. *)
Ltac coords H :=
  let a := fresh "a" in
  let b := fresh "b" in
  destruct (is_vector_cases H) as (a & b & ->); clear H;
  change (coord (vec2 a b) 0) with a in *;
  change (coord (vec2 a b) 1) with b in *.

(** Decides a closed equation or disequation between numbers. *)
Ltac qc_decide :=
  match goal with
  | |- @eq Qc _ _ => apply Qc_eq_bool_true_iff; vm_compute; reflexivity
  | |- ~ @eq Qc _ _ => apply Qc_eq_bool_false_iff; vm_compute; reflexivity
  | |- @eq Qc ?x ?y -> False =>
      apply (proj1 (Qc_eq_bool_false_iff x y)); vm_compute; reflexivity
  end.

(** The body of [project] on two vectors, after both validations. *)
Lemma project_vec2 (a0 a1 b0 b1 : Qc) :
  project (vec2 a0 a1) (vec2 b0 b1) =
  let d := (a0 * b0 + a1 * b1)%Qc in
  if Qc_eq_bool d 0%Qc
  then Raise (ZeroDivisionError "Cannot project onto the zero vector.")
  else Ok (Matrix.truediv (Matrix.rmul d (vec2 a0 a1)) d).
Proof.
  unfold project. rewrite dot_vec2. simpl.
  destruct (Qc_eq_bool _ _); reflexivity.
Qed.

(** The body of [reject] once the reference vector is validated. *)
Lemma reject_vec2 (x : Vector) (u0 u1 : Qc) :
  reject x (vec2 u0 u1) =
  let uu := (u0 * u0 + u1 * u1)%Qc in
  if Qc_eq_bool uu 0%Qc
  then Raise (ZeroDivisionError "Cannot reject about the zero vector.")
  else (w <- wedge x (vec2 u0 u1) ;;
        Ok (Matrix.mul (vec2 (- u1)%Qc u0) (w / uu)%Qc)).
Proof.
  unfold reject. rewrite dot_vec2. simpl.
  destruct (Qc_eq_bool _ _); reflexivity.
Qed.

(** ** The products *)

(** C6: on 2-D column vectors [a] and [b], [dot(a, b)] is
    [a[0]*b[0] + a[1]*b[1]], [wedge(a, b)] is [a[0]*b[1] - a[1]*b[0]], and
    [geometric_prod_vec(a, b)] is exactly their sum. *)
Theorem geometric_prod_vec_dot_plus_wedge (a b : Vector) :
  is_vector a -> is_vector b ->
  dot a b = Ok (coord a 0 * coord b 0 + coord a 1 * coord b 1)%Qc /\
  wedge a b = Ok (coord a 0 * coord b 1 - coord a 1 * coord b 0)%Qc /\
  geometric_prod_vec a b =
    Ok ((coord a 0 * coord b 0 + coord a 1 * coord b 1)
        + (coord a 0 * coord b 1 - coord a 1 * coord b 0))%Qc.
Proof.
  intros Ha Hb.
  rewrite (is_vector_inv Ha), (is_vector_inv Hb).
  unfold geometric_prod_vec. rewrite dot_vec2, wedge_vec2.
  repeat split.
Qed.

Lemma geometric_prod_vec_dot_plus_wedge_witness :
  let a := vec2 (Integer 4) (Integer 2) in
  let b := vec2 (Integer 3) (Integer 3) in
  is_vector a /\ is_vector b /\
  geometric_prod_vec a b =
    Ok ((Integer 4 * Integer 3 + Integer 2 * Integer 3)
        + (Integer 4 * Integer 3 - Integer 2 * Integer 3))%Qc.
Proof.
  intros a b.
  pose proof (is_vector_vec2 (Integer 4) (Integer 2)) as Ha.
  pose proof (is_vector_vec2 (Integer 3) (Integer 3)) as Hb.
  split; [exact Ha|]. split; [exact Hb|].
  exact (proj2 (proj2 (geometric_prod_vec_dot_plus_wedge Ha Hb))).
Defined.

(** C7: the wedge product of 2-D column vectors is antisymmetric,
    [wedge(a, b) == -wedge(b, a)]. *)
Theorem wedge_antisymmetric (a b : Vector) :
  is_vector a -> is_vector b ->
  exists w, wedge b a = Ok w /\ wedge a b = Ok (- w)%Qc.
Proof.
  intros Ha Hb. coords Ha. coords Hb.
  rewrite !wedge_vec2. eexists; split; [reflexivity|].
  f_equal. ring.
Qed.

Lemma wedge_antisymmetric_witness :
  let a := vec2 (Integer 4) (Integer 2) in
  let b := vec2 (Integer 3) (Integer 3) in
  is_vector a /\ is_vector b /\
  exists w, wedge b a = Ok w /\ wedge a b = Ok (- w)%Qc.
Proof.
  intros a b.
  pose proof (is_vector_vec2 (Integer 4) (Integer 2)) as Ha.
  pose proof (is_vector_vec2 (Integer 3) (Integer 3)) as Hb.
  split; [exact Ha|]. split; [exact Hb|].
  exact (wedge_antisymmetric Ha Hb).
Defined.

(** C8: for every 2-D column vector [a], [wedge(a, a) == 0] and
    [dot(a, a) >= 0]. *)
Theorem wedge_self_zero_dot_self_nonneg (a : Vector) :
  is_vector a ->
  wedge a a = Ok 0%Qc /\
  exists d, dot a a = Ok d /\ (0 <= d)%Qc.
Proof.
  intros Ha. coords Ha. rewrite wedge_vec2, dot_vec2. split.
  - f_equal. ring.
  - eexists; split; [reflexivity|].
    replace 0%Qc with (0 + 0)%Qc by ring.
    apply Qcplus_le_compat; apply Qc_square_nonneg.
Qed.

Lemma wedge_self_zero_dot_self_nonneg_witness :
  let a := vec2 (Integer 4) (Integer 2) in
  is_vector a /\
  wedge a a = Ok 0%Qc /\
  exists d, dot a a = Ok d /\ (0 <= d)%Qc.
Proof.
  intros a.
  pose proof (is_vector_vec2 (Integer 4) (Integer 2)) as Ha.
  split; [exact Ha|].
  exact (wedge_self_zero_dot_self_nonneg Ha).
Defined.

(** ** Projection *)

(** Scaling a vector by a non-zero number and dividing by it again gives
    the vector back, entry for entry. *)
Lemma truediv_rmul_cancel (d a b : Qc) :
  d <> 0%Qc -> Matrix.truediv (Matrix.rmul d (vec2 a b)) d = vec2 a b.
Proof.
  intros Hd. unfold Matrix.truediv, Matrix.mul, Matrix.rmul, vec2,
    Matrix.of_list; simpl.
  f_equal. f_equal; [|f_equal]; field; exact Hd.
Qed.

(** C1, amended: on 2-D column vectors whose entries are exact rationals,
    with [dot(u, v) != 0], [project(u, v)] returns [u] itself exactly.  On
    float entries it need not: [project_float_entries_not_exact]. *)
Theorem project_returns_first_argument (u v : Vector) :
  is_vector u -> is_vector v -> dot u v <> Ok 0%Qc ->
  project u v = Ok u.
Proof.
  intros Hu Hv. coords Hu. coords Hv.
  rewrite dot_vec2, project_vec2. intros Hd; simpl.
  destruct (Qc_eq_bool _ _) eqn:E.
  - apply Qc_eq_bool_true_iff in E. congruence.
  - apply Qc_eq_bool_false_iff in E.
    rewrite (truediv_rmul_cancel _ _ E). reflexivity.
Qed.

Lemma project_returns_first_argument_witness :
  let u := vec2 (Integer 4) (Integer 2) in
  let v := vec2 (Integer 3) (Integer 3) in
  is_vector u /\ is_vector v /\ dot u v <> Ok 0%Qc /\ project u v = Ok u.
Proof.
  intros u v.
  pose proof (is_vector_vec2 (Integer 4) (Integer 2)) as Hu.
  pose proof (is_vector_vec2 (Integer 3) (Integer 3)) as Hv.
  assert (Hd : dot u v <> Ok 0%Qc).
  { unfold u, v. rewrite dot_vec2. intros H. apply Ok_inj in H.
    revert H. qc_decide. }
  split; [exact Hu|]. split; [exact Hv|]. split; [exact Hd|].
  exact (project_returns_first_argument Hu Hv Hd).
Defined.

(** C3: on 2-D column vectors, [project(u, v)] raises [ZeroDivisionError]
    exactly when [dot(u, v) == 0], and returns a vector otherwise. *)
Theorem project_division_by_zero_iff (u v : Vector) :
  is_vector u -> is_vector v ->
  (DivisionByZero (project u v) <-> dot u v = Ok 0%Qc) /\
  (dot u v = Ok 0%Qc ->
   project u v =
     Raise (ZeroDivisionError "Cannot project onto the zero vector.")) /\
  (dot u v <> Ok 0%Qc -> exists r, project u v = Ok r).
Proof.
  intros Hu Hv. coords Hu. coords Hv.
  rewrite dot_vec2, project_vec2; simpl.
  destruct (Qc_eq_bool _ _) eqn:E.
  - apply Qc_eq_bool_true_iff in E. rewrite E. repeat split.
    + intros _. eexists; reflexivity.
    + intros H; congruence.
  - apply Qc_eq_bool_false_iff in E. repeat split.
    + intros [msg H]; discriminate.
    + intros H; apply Ok_inj in H; contradiction.
    + intros H; apply Ok_inj in H; contradiction.
    + intros _. eexists; reflexivity.
Qed.

Lemma project_division_by_zero_iff_witness :
  (let u := vec2 (Integer 1) (Integer 0) in
   let v := vec2 (Integer 0) (Integer 1) in
   is_vector u /\ is_vector v /\ dot u v = Ok 0%Qc /\
   project u v =
     Raise (ZeroDivisionError "Cannot project onto the zero vector.")) /\
  (let u := vec2 (Integer 4) (Integer 2) in
   let v := vec2 (Integer 3) (Integer 3) in
   is_vector u /\ is_vector v /\ dot u v <> Ok 0%Qc /\
   exists r, project u v = Ok r).
Proof.
  split; intros u v.
  - pose proof (is_vector_vec2 (Integer 1) (Integer 0)) as Hu.
    pose proof (is_vector_vec2 (Integer 0) (Integer 1)) as Hv.
    assert (Hd : dot u v = Ok 0%Qc).
    { unfold u, v. rewrite dot_vec2. f_equal; qc_decide. }
    split; [exact Hu|]. split; [exact Hv|]. split; [exact Hd|].
    exact (proj1 (proj2 (project_division_by_zero_iff Hu Hv)) Hd).
  - pose proof (is_vector_vec2 (Integer 4) (Integer 2)) as Hu.
    pose proof (is_vector_vec2 (Integer 3) (Integer 3)) as Hv.
    assert (Hd : dot u v <> Ok 0%Qc).
    { unfold u, v. rewrite dot_vec2. intros H. apply Ok_inj in H.
      revert H. qc_decide. }
    split; [exact Hu|]. split; [exact Hv|]. split; [exact Hd|].
    exact (proj2 (proj2 (project_division_by_zero_iff Hu Hv)) Hd).
Defined.

(** The guard of [project] looks at [dot(u, v)], not at [dot(v, v)]:
    projecting onto a non-zero vector orthogonal to [u] raises. *)
Example project_orthogonal_raises :
  let u := vec2 (Integer 1) (Integer 0) in
  let v := vec2 (Integer 0) (Integer 1) in
  dot v v = Ok (Integer 1) /\ DivisionByZero (project u v).
Proof.
  split.
  - rewrite dot_vec2. f_equal; qc_decide.
  - eexists. vm_compute. reflexivity.
Qed.

(** ** Rejection *)

Lemma Ok_vec2_eq (a b a' b' : Qc) :
  a = a' -> b = b' -> Ok (vec2 a b) = Ok (vec2 a' b').
Proof. intros -> ->; reflexivity. Qed.

Lemma vec2_inj (a b a' b' : Qc) : vec2 a b = vec2 a' b' -> a = a' /\ b = b'.
Proof.
  intros H. split.
  - exact (f_equal (fun m => coord m 0) H).
  - exact (f_equal (fun m => coord m 1) H).
Qed.

Lemma neg_vec2 (a b : Qc) :
  Matrix.neg (vec2 a b) = vec2 (a * - (1))%Qc (b * - (1))%Qc.
Proof. reflexivity. Qed.

(** [reject] on two vectors whose reference vector passes the guard. *)
Lemma reject_vectors (x0 x1 u0 u1 : Qc) :
  (u0 * u0 + u1 * u1)%Qc <> 0%Qc ->
  reject (vec2 x0 x1) (vec2 u0 u1) =
  Ok (vec2 (- u1 * ((x0 * u1 - x1 * u0) / (u0 * u0 + u1 * u1)))%Qc
           (u0 * ((x0 * u1 - x1 * u0) / (u0 * u0 + u1 * u1)))%Qc).
Proof.
  intros Huu. rewrite reject_vec2, wedge_vec2; simpl.
  apply Qc_eq_bool_false_iff in Huu. rewrite Huu. reflexivity.
Qed.

(** The textbook rejection on two vectors. *)
Lemma standard_rejection_vectors (x0 x1 u0 u1 : Qc) :
  standard_rejection (vec2 x0 x1) (vec2 u0 u1) =
  Ok (vec2 (x0 + (x0 * u0 + x1 * u1) / (u0 * u0 + u1 * u1) * u0 * - (1))%Qc
           (x1 + (x0 * u0 + x1 * u1) / (u0 * u0 + u1 * u1) * u1 * - (1))%Qc).
Proof. reflexivity. Qed.

(** C9, amended: on 2-D column vectors whose entries are exact rationals,
    with [dot(u, u) != 0], the result of [reject(x, u)] is perpendicular to
    [u], [dot(reject(x, u), u) == 0].  On float entries the dot product need
    not be zero: [reject_float_entries_not_perpendicular]. *)
Theorem reject_perpendicular (x u : Vector) :
  is_vector x -> is_vector u -> dot u u <> Ok 0%Qc ->
  exists r, reject x u = Ok r /\ dot r u = Ok 0%Qc.
Proof.
  intros Hx Hu. coords Hx. coords Hu. rewrite dot_vec2. intros Huu.
  assert (Hnz : (a0 * a0 + b0 * b0)%Qc <> 0%Qc) by congruence.
  rewrite (reject_vectors _ _ Hnz).
  eexists; split; [reflexivity|].
  rewrite dot_vec2. f_equal. field. exact Hnz.
Qed.

Lemma reject_perpendicular_witness :
  let x := vec2 (Integer 4) (Integer 2) in
  let u := vec2 (Integer 3) (Integer 3) in
  is_vector x /\ is_vector u /\ dot u u <> Ok 0%Qc /\
  exists r, reject x u = Ok r /\ dot r u = Ok 0%Qc.
Proof.
  intros x u.
  pose proof (is_vector_vec2 (Integer 4) (Integer 2)) as Hx.
  pose proof (is_vector_vec2 (Integer 3) (Integer 3)) as Hu.
  assert (Hd : dot u u <> Ok 0%Qc).
  { unfold u. rewrite dot_vec2. intros H. apply Ok_inj in H.
    revert H. qc_decide. }
  split; [exact Hx|]. split; [exact Hu|]. split; [exact Hd|].
  exact (reject_perpendicular Hx Hu Hd).
Defined.

(** [reject] returns the opposite of the textbook rejection. *)
Lemma reject_opposite_of_standard_rejection (x u : Vector) :
  is_vector x -> is_vector u -> dot u u <> Ok 0%Qc ->
  exists r, reject x u = Ok r /\ standard_rejection x u = Ok (Matrix.neg r).
Proof.
  intros Hx Hu. coords Hx. coords Hu. rewrite dot_vec2. intros Huu.
  assert (Hnz : (a0 * a0 + b0 * b0)%Qc <> 0%Qc) by congruence.
  rewrite (reject_vectors _ _ Hnz), standard_rejection_vectors.
  eexists; split; [reflexivity|].
  rewrite neg_vec2. apply Ok_vec2_eq; field; exact Hnz.
Qed.

(** The two agree only where the rejection vanishes, that is when [x] and
    [u] are parallel. *)
Lemma reject_eq_standard_rejection_iff (x u : Vector) :
  is_vector x -> is_vector u -> dot u u <> Ok 0%Qc ->
  (reject x u = standard_rejection x u <-> wedge x u = Ok 0%Qc).
Proof.
  intros Hx Hu. coords Hx. coords Hu. rewrite dot_vec2. intros Huu.
  assert (Hnz : (a0 * a0 + b0 * b0)%Qc <> 0%Qc) by congruence.
  rewrite (reject_vectors _ _ Hnz), standard_rejection_vectors, wedge_vec2.
  set (uu := (a0 * a0 + b0 * b0)%Qc) in *.
  set (s := ((a * b0 - b * a0) / uu)%Qc).
  assert (E0 : (a + (a * a0 + b * b0) / uu * a0 * - (1) = b0 * s)%Qc)
    by (unfold s, uu; field; exact Hnz).
  assert (E1 : (b + (a * a0 + b * b0) / uu * b0 * - (1) = - a0 * s)%Qc)
    by (unfold s, uu; field; exact Hnz).
  assert (Ew : (a * b0 - b * a0 = s * uu)%Qc)
    by (unfold s, uu; field; exact Hnz).
  assert (H2 : (1 + 1)%Qc <> 0%Qc) by qc_decide.
  rewrite E0, E1, Ew. split.
  - intros H. apply Ok_inj, vec2_inj in H. destruct H as [H0 H1].
    assert (Hb : (b0 * s = 0)%Qc).
    { apply Qcmult_integral_l with (x := (1 + 1)%Qc); [exact H2|].
      transitivity (b0 * s - - b0 * s)%Qc; [ring|].
      rewrite H0. ring. }
    assert (Ha : (a0 * s = 0)%Qc).
    { apply Qcmult_integral_l with (x := (1 + 1)%Qc); [exact H2|].
      transitivity (a0 * s - - a0 * s)%Qc; [ring|].
      rewrite <- H1. ring. }
    assert (Hs : (uu * s = 0)%Qc).
    { transitivity (a0 * (a0 * s) + b0 * (b0 * s))%Qc; [unfold uu; ring|].
      rewrite Ha, Hb. ring. }
    apply Qcmult_integral_l in Hs; [|exact Hnz]. rewrite Hs. f_equal. ring.
  - intros H. apply Ok_inj in H.
    assert (Hs : (s = 0)%Qc).
    { apply Qcmult_integral in H. destruct H; [assumption|contradiction]. }
    rewrite Hs. apply Ok_vec2_eq; ring.
Qed.

(** [reject] on the vectors of the demo. *)
Lemma reject_demo_vectors :
  reject (vec2 (Integer 4) (Integer 2)) (vec2 (Integer 3) (Integer 3)) =
  Ok (vec2 (Integer (-1)) (Integer 1)).
Proof.
  rewrite reject_vectors by qc_decide.
  apply Ok_vec2_eq; qc_decide.
Qed.

(** C2: [reject(x, u)] is not the textbook rejection
    [x - (dot(x,u) / dot(u,u)) * u].  On [x = (4, 2)] and [u = (3, 3)] the
    textbook rejection is [(1, -1)] and [reject] returns [(-1, 1)]. *)
Theorem reject_is_not_standard_rejection :
  let x := vec2 (Integer 4) (Integer 2) in
  let u := vec2 (Integer 3) (Integer 3) in
  is_vector x /\ is_vector u /\ dot u u = Ok (Integer 18) /\
  reject x u = Ok (vec2 (Integer (-1)) (Integer 1)) /\
  standard_rejection x u = Ok (vec2 (Integer 1) (Integer (-1))) /\
  reject x u <> standard_rejection x u.
Proof.
  intros x u.
  assert (Hs : standard_rejection x u = Ok (vec2 (Integer 1) (Integer (-1)))).
  { unfold x, u. rewrite standard_rejection_vectors.
    apply Ok_vec2_eq; qc_decide. }
  split; [apply is_vector_vec2|]. split; [apply is_vector_vec2|].
  split; [unfold u; rewrite dot_vec2; f_equal; qc_decide|].
  split; [exact reject_demo_vectors|]. split; [exact Hs|].
  rewrite Hs. unfold x, u. rewrite reject_demo_vectors.
  intros H. apply Ok_inj, vec2_inj in H. destruct H as [H _].
  revert H. qc_decide.
Qed.

(** [reject] validates its reference vector before anything else: a
    reference vector of the wrong shape is reported whatever [x] is. *)
Lemma reject_validates_reference_first (x u : Vector) :
  Matrix.shape u <> (2, 1) ->
  reject x u =
  Raise (ValueError ("Expected a 2-D column vector, got shape "
                       ++ repr_shape (Matrix.shape u))%string).
Proof.
  intros Hs. unfold reject, dot, _validate_vector.
  destruct (Matrix.shape_eqb (Matrix.shape u) (2, 1)) eqn:E.
  - apply shape_eqb_spec in E. contradiction.
  - reflexivity.
Qed.

(** C10: for the zero vector [u] and a matrix [x] of any shape,
    [reject(x, u)] raises [ZeroDivisionError]; [x] is never validated, so
    no [ValueError] is raised even when [x] is not a 2-D column vector. *)
Theorem reject_zero_vector_any_shape (x u : Vector) :
  is_zero_vector u ->
  reject x u =
    Raise (ZeroDivisionError "Cannot reject about the zero vector.") /\
  DivisionByZero (reject x u) /\ ~ InvalidShape (reject x u).
Proof.
  intros Hu. rewrite (is_zero_vector_inv Hu). rewrite reject_vec2.
  assert (E : Qc_eq_bool (0 * 0 + 0 * 0)%Qc 0%Qc = true)
    by (apply Qc_eq_bool_true_iff; ring).
  cbv zeta. rewrite E. split; [reflexivity|]. split.
  - eexists; reflexivity.
  - intros [msg H]; discriminate.
Qed.

Lemma reject_zero_vector_any_shape_witness :
  let x := Matrix.of_list [Integer 1; Integer 2; Integer 3] in
  let u := vec2 0%Qc 0%Qc in
  is_zero_vector u /\ InvalidShape (_validate_vector x) /\
  reject x u =
    Raise (ZeroDivisionError "Cannot reject about the zero vector.") /\
  DivisionByZero (reject x u) /\ ~ InvalidShape (reject x u).
Proof.
  intros x u.
  assert (Hu : is_zero_vector u).
  { split; [apply is_vector_vec2|]. repeat constructor. }
  split; [exact Hu|]. split; [eexists; reflexivity|].
  exact (reject_zero_vector_any_shape x Hu).
Defined.

(** ** The demo *)

Lemma demo_u_value :
  Matrix.add (Matrix.rmul (Integer 4) (Matrix.of_list [Integer 1; Integer 0]))
             (Matrix.rmul (Integer 2) (Matrix.of_list [Integer 0; Integer 1]))
  = Ok (vec2 (Integer 4) (Integer 2)).
Proof.
  unfold Matrix.add; simpl. apply Ok_vec2_eq; qc_decide.
Qed.

Lemma demo_v_value :
  Matrix.add (Matrix.rmul (Integer 3) (Matrix.of_list [Integer 1; Integer 0]))
             (Matrix.rmul (Integer 3) (Matrix.of_list [Integer 0; Integer 1]))
  = Ok (vec2 (Integer 3) (Integer 3)).
Proof.
  unfold Matrix.add; simpl. apply Ok_vec2_eq; qc_decide.
Qed.

Lemma project_demo_vectors :
  project (vec2 (Integer 4) (Integer 2)) (vec2 (Integer 3) (Integer 3)) =
  Ok (vec2 (Integer 4) (Integer 2)).
Proof.
  rewrite project_vec2. cbv zeta.
  assert (Hd : (Integer 4 * Integer 3 + Integer 2 * Integer 3)%Qc <> 0%Qc)
    by qc_decide.
  rewrite (proj2 (Qc_eq_bool_false_iff _ _) Hd).
  rewrite (truediv_rmul_cancel _ _ Hd). reflexivity.
Qed.

(** C5: with [u = (4, 2)] and [v = (3, 3)], as [main] builds them:
    [dot(u, v) == 18], [wedge(u, v) == 6], [geometric_prod_vec(u, v) == 24],
    [project(u, v) == u] and [reject(u, v)] is [(-1, 1)]. *)
Theorem demo_values :
  let u := vec2 (Integer 4) (Integer 2) in
  let v := vec2 (Integer 3) (Integer 3) in
  dot u v = Ok (Integer 18) /\
  wedge u v = Ok (Integer 6) /\
  geometric_prod_vec u v = Ok (Integer 24) /\
  project u v = Ok u /\
  reject u v = Ok (vec2 (Integer (-1)) (Integer 1)) /\
  main = Ok (mk_demo u v u (vec2 (Integer (-1)) (Integer 1))
                     (Integer 18) (Integer 6)).
Proof.
  intros u v.
  assert (Hd : dot u v = Ok (Integer 18))
    by (unfold u, v; rewrite dot_vec2; f_equal; qc_decide).
  assert (Hw : wedge u v = Ok (Integer 6))
    by (unfold u, v; rewrite wedge_vec2; f_equal; qc_decide).
  split; [exact Hd|]. split; [exact Hw|].
  split; [|split; [|split]].
  - unfold geometric_prod_vec. rewrite Hd, Hw; simpl. f_equal; qc_decide.
  - exact project_demo_vectors.
  - exact reject_demo_vectors.
  - unfold main. cbv zeta. rewrite demo_u_value, demo_v_value.
    cbn [bind]. rewrite project_demo_vectors. cbn [bind].
    rewrite reject_demo_vectors. cbn [bind].
    fold u v. rewrite Hd. cbn [bind]. rewrite Hw. reflexivity.
Qed.

(** ** Validation *)

(** *** The message of [ValueError] determines the shape *)

Lemma string_of_uint_all_digits (d : Decimal.uint) :
  all_digits (NilEmpty.string_of_uint d) = true.
Proof. induction d; simpl; auto. Qed.

Lemma repr_nat_all_digits (n : nat) : all_digits (repr_nat n) = true.
Proof. apply string_of_uint_all_digits. Qed.

Lemma repr_nat_inj (n m : nat) : repr_nat n = repr_nat m -> n = m.
Proof.
  unfold repr_nat. intros H.
  apply (f_equal NilEmpty.uint_of_string) in H.
  rewrite !NilEmpty.usu in H.
  apply Unsigned.to_uint_inj. congruence.
Qed.

(** Two runs of digits followed by the same non-digit are equal when the
    whole strings are. *)
Lemma digits_then_separator (c : ascii) (s1 : string) :
  is_digit c = false -> all_digits s1 = true ->
  forall s2 t1 t2, all_digits s2 = true ->
  (s1 ++ String c t1 = s2 ++ String c t2)%string ->
  s1 = s2 /\ t1 = t2.
Proof.
  intros Hc. induction s1 as [|a s1 IH]; intros H1 s2 t1 t2 H2 E.
  - destruct s2 as [|b s2]; simpl in *.
    + injection E as ->. auto.
    + injection E as <- _. apply andb_true_iff in H2. destruct H2; congruence.
  - destruct s2 as [|b s2]; simpl in *.
    + injection E as -> _. apply andb_true_iff in H1. destruct H1; congruence.
    + injection E as -> E.
      apply andb_true_iff in H1. apply andb_true_iff in H2.
      destruct (IH (proj2 H1) s2 t1 t2 (proj2 H2) E) as [-> ->]. auto.
Qed.

Lemma append_inj_l (p s s' : string) : (p ++ s = p ++ s')%string -> s = s'.
Proof.
  induction p as [|c p IH]; simpl; intros H; [exact H|].
  injection H as H. auto.
Qed.

Lemma repr_shape_inj (s s' : nat * nat) : repr_shape s = repr_shape s' -> s = s'.
Proof.
  destruct s as [r c], s' as [r' c']; unfold repr_shape; simpl.
  intros H. injection H as H.
  apply digits_then_separator in H;
    [|reflexivity|apply repr_nat_all_digits..].
  destruct H as [Hr H]. injection H as H.
  apply digits_then_separator in H;
    [|reflexivity|apply repr_nat_all_digits..].
  destruct H as [Hc _].
  apply repr_nat_inj in Hr, Hc. congruence.
Qed.

(** A row of two entries has two components and is rejected. *)
Lemma validate_vector_rejects_row :
  let v := Matrix.of_row [Integer 1; Integer 2] in
  Matrix.well_formed v /\ Matrix.len v = 2 /\
  _validate_vector v =
    Raise (ValueError "Expected a 2-D column vector, got shape (1, 2)") /\
  ~ (forall m : Vector,
        Matrix.well_formed m -> Matrix.len m = 2 -> _validate_vector m = Ok tt).
Proof.
  intros v. split; [reflexivity|]. split; [reflexivity|].
  split; [reflexivity|].
  intros H. specialize (H v eq_refl eq_refl). discriminate H.
Qed.

(** C4, amended: [_validate_vector(v)] succeeds silently when the shape of
    [v] is [(2, 1)]; otherwise it raises a [ValueError] whose message
    carries the shape of [v], and from which that shape can be read back.
    In particular a matrix of three components is rejected. *)
Theorem validate_vector_shape (v : Vector) :
  (Matrix.shape v = (2, 1) -> _validate_vector v = Ok tt) /\
  (Matrix.shape v <> (2, 1) ->
   _validate_vector v =
     Raise (ValueError ("Expected a 2-D column vector, got shape "
                          ++ repr_shape (Matrix.shape v))%string) /\
   forall w : Vector,
     _validate_vector w = _validate_vector v ->
     Matrix.shape w = Matrix.shape v) /\
  (Matrix.len v = 3 -> InvalidShape (_validate_vector v)).
Proof.
  assert (Hbad : forall m : Vector, Matrix.shape m <> (2, 1) ->
            _validate_vector m =
              Raise (ValueError ("Expected a 2-D column vector, got shape "
                                   ++ repr_shape (Matrix.shape m))%string)).
  { intros m Hm. unfold _validate_vector.
    destruct (Matrix.shape_eqb (Matrix.shape m) (2, 1)) eqn:E; [|reflexivity].
    apply shape_eqb_spec in E. contradiction. }
  assert (Hgood : forall m : Vector, Matrix.shape m = (2, 1) ->
            _validate_vector m = Ok tt).
  { intros m Hm. unfold _validate_vector.
    apply shape_eqb_spec in Hm. rewrite Hm. reflexivity. }
  split; [apply Hgood|]. split.
  - intros Hv. split; [apply Hbad; exact Hv|].
    intros w Hw. rewrite (Hbad v Hv) in Hw.
    destruct (Matrix.shape_eqb (Matrix.shape w) (2, 1)) eqn:E.
    + apply shape_eqb_spec in E. rewrite (Hgood w E) in Hw. discriminate.
    + assert (Hs : Matrix.shape w <> (2, 1)).
      { intros C. apply shape_eqb_spec in C. congruence. }
      rewrite (Hbad w Hs) in Hw.
      apply repr_shape_inj.
      apply append_inj_l with
        (p := "Expected a 2-D column vector, got shape "%string).
      congruence.
  - intros Hlen. eexists. apply Hbad.
    unfold Matrix.shape, Matrix.len in *. intros C. injection C as Hr Hc.
    rewrite Hr, Hc in Hlen. discriminate.
Qed.

Lemma validate_vector_shape_witness :
  (let v := vec2 (Integer 4) (Integer 2) in
   Matrix.shape v = (2, 1) /\ _validate_vector v = Ok tt) /\
  (let v := Matrix.of_list [Integer 1; Integer 2; Integer 3] in
   Matrix.shape v <> (2, 1) /\ Matrix.len v = 3 /\
   _validate_vector v =
     Raise (ValueError "Expected a 2-D column vector, got shape (3, 1)") /\
   InvalidShape (_validate_vector v)).
Proof.
  split; intros v.
  - split; [reflexivity|].
    exact (proj1 (validate_vector_shape v) eq_refl).
  - assert (Hs : Matrix.shape v <> (2, 1)) by discriminate.
    split; [exact Hs|]. split; [reflexivity|]. split.
    + exact (proj1 (proj1 (proj2 (validate_vector_shape v)) Hs)).
    + exact (proj2 (proj2 (validate_vector_shape v)) eq_refl).
Defined.

(** * Further properties of the module *)

(** ** Helper facts *)

Lemma validate_bad_shape (v : Vector) :
  Matrix.shape v <> (2, 1) -> _validate_vector v = Raise (shape_error v).
Proof.
  intros Hv. unfold _validate_vector.
  destruct (Matrix.shape_eqb (Matrix.shape v) (2, 1)) eqn:E; [|reflexivity].
  apply shape_eqb_spec in E. contradiction.
Qed.

Lemma validate_good_shape (v : Vector) :
  Matrix.shape v = (2, 1) -> _validate_vector v = Ok tt.
Proof.
  intros Hv. unfold _validate_vector.
  apply shape_eqb_spec in Hv. rewrite Hv. reflexivity.
Qed.

Lemma shape_dec (v : Vector) :
  {Matrix.shape v = (2, 1)} + {Matrix.shape v <> (2, 1)}.
Proof.
  destruct (Matrix.shape_eqb (Matrix.shape v) (2, 1)) eqn:E.
  - left. apply shape_eqb_spec. exact E.
  - right. intros C. apply shape_eqb_spec in C. congruence.
Qed.

Lemma rmul_vec2 (s a b : Qc) :
  Matrix.rmul s (vec2 a b) = vec2 (s * a)%Qc (s * b)%Qc.
Proof. reflexivity. Qed.

Lemma add_vec2 (a b c d : Qc) :
  Matrix.add (vec2 a b) (vec2 c d) = Ok (vec2 (a + c)%Qc (b + d)%Qc).
Proof. reflexivity. Qed.

Lemma Qc_square_zero (x : Qc) : (x * x = 0)%Qc -> x = 0%Qc.
Proof. intros H. apply Qcmult_integral in H. tauto. Qed.

Lemma Qc_sum_squares_zero (x y : Qc) :
  (x * x + y * y = 0)%Qc -> x = 0%Qc /\ y = 0%Qc.
Proof.
  intros H.
  assert (Hx : (x * x <= 0)%Qc).
  { rewrite <- H. rewrite <- (Qcplus_0_r (x * x)) at 1.
    apply Qcplus_le_compat; [apply Qcle_refl|apply Qc_square_nonneg]. }
  assert (Hy : (y * y <= 0)%Qc).
  { rewrite <- H. rewrite <- (Qcplus_0_l (y * y)) at 1.
    apply Qcplus_le_compat; [apply Qc_square_nonneg|apply Qcle_refl]. }
  split; apply Qc_square_zero; apply Qcle_antisym;
    auto using Qc_square_nonneg.
Qed.

Lemma Qc_lagrange (p q r s : Qc) :
  ((p * r + q * s) * (p * r + q * s) + (p * s - q * r) * (p * s - q * r)
   = (p * p + q * q) * (r * r + s * s))%Qc.
Proof. ring. Qed.

Lemma is_zero_vector_vec2 (a b : Qc) :
  is_zero_vector (vec2 a b) <-> a = 0%Qc /\ b = 0%Qc.
Proof.
  split.
  - intros H. apply is_zero_vector_inv, vec2_inj in H. exact H.
  - intros [-> ->]. split; [apply is_vector_vec2|]. repeat constructor.
Qed.

(** ** The products, continued *)

(** X1: the dot product of two 2-D column vectors does not depend on the
    order of its arguments. *)
Theorem dot_symmetric (a b : Vector) :
  is_vector a -> is_vector b -> dot a b = dot b a.
Proof.
  intros Ha Hb. coords Ha. coords Hb.
  rewrite !dot_vec2. f_equal. ring.
Qed.

Lemma dot_symmetric_witness :
  let a := vec2 (Integer 4) (Integer 2) in
  let b := vec2 (Integer 3) (Integer 3) in
  is_vector a /\ is_vector b /\ dot a b = dot b a.
Proof.
  intros a b.
  pose proof (is_vector_vec2 (Integer 4) (Integer 2)) as Ha.
  pose proof (is_vector_vec2 (Integer 3) (Integer 3)) as Hb.
  split; [exact Ha|]. split; [exact Hb|].
  exact (dot_symmetric Ha Hb).
Defined.

(** X2: on rational entries, Lagrange's identity and the Cauchy-Schwarz
    inequality: [dot(a,b)^2 + wedge(a,b)^2 == dot(a,a) * dot(b,b)], hence
    [dot(a,b)^2 <= dot(a,a) * dot(b,b)]. *)
Theorem dot_wedge_lagrange (a b : Vector) :
  is_vector a -> is_vector b ->
  exists d w aa bb,
    dot a b = Ok d /\ wedge a b = Ok w /\
    dot a a = Ok aa /\ dot b b = Ok bb /\
    (d * d + w * w = aa * bb)%Qc /\ (d * d <= aa * bb)%Qc.
Proof.
  intros Ha Hb. coords Ha. coords Hb.
  rewrite !dot_vec2, wedge_vec2.
  do 4 eexists. do 4 (split; [reflexivity|]).
  split; [apply Qc_lagrange|]. rewrite <- Qc_lagrange.
  rewrite <- (Qcplus_0_r (_ * _)) at 1.
  apply Qcplus_le_compat; [apply Qcle_refl|apply Qc_square_nonneg].
Qed.

Lemma dot_wedge_lagrange_witness :
  let a := vec2 (Integer 4) (Integer 2) in
  let b := vec2 (Integer 3) (Integer 3) in
  is_vector a /\ is_vector b /\
  exists d w aa bb,
    dot a b = Ok d /\ wedge a b = Ok w /\
    dot a a = Ok aa /\ dot b b = Ok bb /\
    (d * d + w * w = aa * bb)%Qc /\ (d * d <= aa * bb)%Qc.
Proof.
  intros a b.
  pose proof (is_vector_vec2 (Integer 4) (Integer 2)) as Ha.
  pose proof (is_vector_vec2 (Integer 3) (Integer 3)) as Hb.
  split; [exact Ha|]. split; [exact Hb|].
  exact (dot_wedge_lagrange Ha Hb).
Defined.

(** X3: [dot(u, u) == 0] holds for the zero vector and for no other 2-D
    column vector. *)
Theorem dot_self_zero_iff (u : Vector) :
  is_vector u -> (dot u u = Ok 0%Qc <-> is_zero_vector u).
Proof.
  intros Hu. coords Hu. rewrite dot_vec2, is_zero_vector_vec2. split.
  - intros H. apply Ok_inj in H. apply Qc_sum_squares_zero. exact H.
  - intros [-> ->]. f_equal; ring.
Qed.

Lemma dot_self_zero_iff_witness :
  let u := vec2 (Integer 3) (Integer 3) in
  is_vector u /\ (dot u u = Ok 0%Qc <-> is_zero_vector u).
Proof.
  intros u.
  pose proof (is_vector_vec2 (Integer 3) (Integer 3)) as Hu.
  split; [exact Hu|].
  exact (dot_self_zero_iff Hu).
Defined.

(** ** Which exception is raised *)

Lemma dot_bad_first (a b : Vector) :
  Matrix.shape a <> (2, 1) -> dot a b = Raise (shape_error a).
Proof. intros Ha. unfold dot. rewrite (validate_bad_shape Ha). reflexivity. Qed.

Lemma dot_bad_second (a b : Vector) :
  Matrix.shape a = (2, 1) -> Matrix.shape b <> (2, 1) ->
  dot a b = Raise (shape_error b).
Proof.
  intros Ha Hb. unfold dot.
  rewrite (validate_good_shape Ha), (validate_bad_shape Hb). reflexivity.
Qed.

Lemma wedge_bad_first (a b : Vector) :
  Matrix.shape a <> (2, 1) -> wedge a b = Raise (shape_error a).
Proof. intros Ha. unfold wedge. rewrite (validate_bad_shape Ha). reflexivity. Qed.

Lemma wedge_bad_second (a b : Vector) :
  Matrix.shape a = (2, 1) -> Matrix.shape b <> (2, 1) ->
  wedge a b = Raise (shape_error b).
Proof.
  intros Ha Hb. unfold wedge.
  rewrite (validate_good_shape Ha), (validate_bad_shape Hb). reflexivity.
Qed.

Lemma nonzero_reference (u0 u1 : Qc) :
  ~ is_zero_vector (vec2 u0 u1) -> (u0 * u0 + u1 * u1)%Qc <> 0%Qc.
Proof.
  intros Hnz H. apply Hnz, is_zero_vector_vec2, Qc_sum_squares_zero, H.
Qed.

(** X4: on 2-D column vectors, [reject(x, u)] raises [ZeroDivisionError]
    exactly when [u] is the zero vector; for every other [u] it returns a
    2-D column vector. *)
Theorem reject_division_by_zero_iff (x u : Vector) :
  is_vector x -> is_vector u ->
  (DivisionByZero (reject x u) <-> is_zero_vector u) /\
  (~ is_zero_vector u -> exists r, reject x u = Ok r /\ is_vector r).
Proof.
  intros Hx Hu.
  destruct (is_vector_cases Hx) as (x0 & x1 & ->).
  destruct (is_vector_cases Hu) as (u0 & u1 & ->).
  destruct (Qc_eq_dec (u0 * u0 + u1 * u1) 0) as [Hz|Hnz].
  - assert (Hzero : is_zero_vector (vec2 u0 u1))
      by (apply is_zero_vector_vec2, Qc_sum_squares_zero, Hz).
    split; [|intros C; contradiction].
    split; [intros _; exact Hzero|intros _].
    rewrite reject_vec2. cbv zeta.
    rewrite (proj2 (Qc_eq_bool_true_iff _ _) Hz). eexists; reflexivity.
  - rewrite (reject_vectors _ _ Hnz). split.
    + split.
      * intros [msg H]; discriminate.
      * intros Hzero. apply is_zero_vector_vec2 in Hzero.
        destruct Hzero as [-> ->]. exfalso. apply Hnz. ring.
    + intros _. eexists; split; [reflexivity|apply is_vector_vec2].
Qed.

Lemma reject_division_by_zero_iff_witness :
  let x := vec2 (Integer 4) (Integer 2) in
  let u := vec2 (Integer 3) (Integer 3) in
  is_vector x /\ is_vector u /\ ~ is_zero_vector u /\
  exists r, reject x u = Ok r /\ is_vector r.
Proof.
  intros x u.
  pose proof (is_vector_vec2 (Integer 4) (Integer 2)) as Hx.
  pose proof (is_vector_vec2 (Integer 3) (Integer 3)) as Hu.
  assert (Hnz : ~ is_zero_vector u).
  { intros H. apply is_zero_vector_vec2 in H. destruct H as [H _].
    revert H. qc_decide. }
  split; [exact Hx|]. split; [exact Hu|]. split; [exact Hnz|].
  exact (proj2 (reject_division_by_zero_iff Hx Hu) Hnz).
Defined.

(** Closes a goal [r = Raise e -> e = e1 \/ e = e2 \/ ...] where [r] is a
    value. *)
Ltac pick_error :=
  let H := fresh in
  intros H; cbn [bind] in H; unfold shape_error in *;
  first [ discriminate H
        | left; congruence
        | right; left; congruence
        | right; right; congruence
        | right; congruence ].

(** X5: on matrices SymPy can build, of any shape, the module raises only
    its own exceptions: the [ValueError] of one of the two arguments or, for
    [project] and [reject], its [ZeroDivisionError].  The indexing and the
    [Matrix.dot] call never fail. *)
Theorem module_raises_only_its_own_errors (a b : Vector) :
  Matrix.well_formed a -> Matrix.well_formed b ->
  (forall e, dot a b = Raise e -> e = shape_error a \/ e = shape_error b) /\
  (forall e, wedge a b = Raise e -> e = shape_error a \/ e = shape_error b) /\
  (forall e, geometric_prod_vec a b = Raise e ->
             e = shape_error a \/ e = shape_error b) /\
  (forall e, project a b = Raise e ->
             e = shape_error a \/ e = shape_error b \/
             e = ZeroDivisionError "Cannot project onto the zero vector.") /\
  (forall e, reject a b = Raise e ->
             e = shape_error a \/ e = shape_error b \/
             e = ZeroDivisionError "Cannot reject about the zero vector.").
Proof.
  intros Wa Wb.
  destruct (shape_dec a) as [Sa|Sa]; destruct (shape_dec b) as [Sb|Sb].
  - destruct (is_vector_cases (conj Wa Sa)) as (a0 & a1 & ->).
    destruct (is_vector_cases (conj Wb Sb)) as (b0 & b1 & ->).
    unfold geometric_prod_vec.
    rewrite dot_vec2, wedge_vec2, project_vec2, reject_vec2, wedge_vec2.
    cbv zeta. repeat split; intros e;
      try destruct (Qc_eq_bool _ _); pick_error.
  - unfold geometric_prod_vec, project.
    rewrite (dot_bad_second Sa Sb), (wedge_bad_second Sa Sb),
      (reject_validates_reference_first a Sb).
    repeat split; intros e; pick_error.
  - unfold geometric_prod_vec, project.
    rewrite (dot_bad_first b Sa), (wedge_bad_first b Sa).
    destruct (is_vector_cases (conj Wb Sb)) as (b0 & b1 & ->).
    rewrite reject_vec2, (wedge_bad_first (vec2 b0 b1) Sa). cbv zeta.
    repeat split; intros e; try destruct (Qc_eq_bool _ _); pick_error.
  - unfold geometric_prod_vec, project.
    rewrite (dot_bad_first b Sa), (wedge_bad_first b Sa),
      (reject_validates_reference_first a Sb).
    repeat split; intros e; pick_error.
Qed.

Lemma module_raises_only_its_own_errors_witness :
  let a := Matrix.of_list [Integer 1; Integer 2; Integer 3] in
  let b := Matrix.of_row [Integer 1; Integer 2] in
  Matrix.well_formed a /\ Matrix.well_formed b /\
  forall e, dot a b = Raise e -> e = shape_error a \/ e = shape_error b.
Proof.
  intros a b.
  assert (Wa : Matrix.well_formed a) by reflexivity.
  assert (Wb : Matrix.well_formed b) by reflexivity.
  split; [exact Wa|]. split; [exact Wb|].
  exact (proj1 (module_raises_only_its_own_errors Wa Wb)).
Defined.

(** X6: [dot], [wedge], [geometric_prod_vec] and [project] validate their
    first argument first: a first argument of the wrong shape is the one
    reported, whatever the second is; the second is reported only when the
    first is a column of two. *)
Theorem first_invalid_argument_reported (a b : Vector) :
  (Matrix.shape a <> (2, 1) ->
   dot a b = Raise (shape_error a) /\
   wedge a b = Raise (shape_error a) /\
   geometric_prod_vec a b = Raise (shape_error a) /\
   project a b = Raise (shape_error a)) /\
  (Matrix.shape a = (2, 1) -> Matrix.shape b <> (2, 1) ->
   dot a b = Raise (shape_error b) /\
   wedge a b = Raise (shape_error b) /\
   geometric_prod_vec a b = Raise (shape_error b) /\
   project a b = Raise (shape_error b)).
Proof.
  split.
  - intros Sa. unfold geometric_prod_vec, project.
    rewrite (dot_bad_first b Sa), (wedge_bad_first b Sa). repeat split.
  - intros Sa Sb. unfold geometric_prod_vec, project.
    rewrite (dot_bad_second Sa Sb), (wedge_bad_second Sa Sb).
    repeat split.
Qed.

Lemma first_invalid_argument_reported_witness :
  (let a := Matrix.of_list [Integer 1; Integer 2; Integer 3] in
   let b := Matrix.of_row [Integer 1; Integer 2] in
   Matrix.shape a <> (2, 1) /\
   project a b =
     Raise (ValueError "Expected a 2-D column vector, got shape (3, 1)")) /\
  (let a := vec2 (Integer 4) (Integer 2) in
   let b := Matrix.of_row [Integer 1; Integer 2] in
   Matrix.shape a = (2, 1) /\ Matrix.shape b <> (2, 1) /\
   project a b =
     Raise (ValueError "Expected a 2-D column vector, got shape (1, 2)")).
Proof.
  split; intros a b.
  - assert (Sa : Matrix.shape a <> (2, 1)) by discriminate.
    split; [exact Sa|].
    exact (proj2 (proj2 (proj2
             (proj1 (first_invalid_argument_reported a b) Sa)))).
  - assert (Sa : Matrix.shape a = (2, 1)) by reflexivity.
    assert (Sb : Matrix.shape b <> (2, 1)) by discriminate.
    split; [exact Sa|]. split; [exact Sb|].
    exact (proj2 (proj2 (proj2
             (proj2 (first_invalid_argument_reported a b) Sa Sb)))).
Defined.

(** X7: [reject(x, u)] validates [x] last: when [u] is a non-zero 2-D column
    vector and [x] has the wrong shape, the [ValueError] of [x] is raised. *)
Theorem reject_reports_x_after_guard (x u : Vector) :
  is_vector u -> ~ is_zero_vector u -> Matrix.shape x <> (2, 1) ->
  reject x u = Raise (shape_error x).
Proof.
  intros Hu Hnz Sx.
  destruct (is_vector_cases Hu) as (u0 & u1 & ->).
  rewrite reject_vec2. cbv zeta.
  rewrite (proj2 (Qc_eq_bool_false_iff _ _) (nonzero_reference Hnz)).
  rewrite (wedge_bad_first (vec2 u0 u1) Sx). reflexivity.
Qed.

Lemma reject_reports_x_after_guard_witness :
  let x := Matrix.of_list [Integer 1; Integer 2; Integer 3] in
  let u := vec2 (Integer 3) (Integer 3) in
  is_vector u /\ ~ is_zero_vector u /\ Matrix.shape x <> (2, 1) /\
  reject x u =
    Raise (ValueError "Expected a 2-D column vector, got shape (3, 1)").
Proof.
  intros x u.
  pose proof (is_vector_vec2 (Integer 3) (Integer 3)) as Hu.
  assert (Hnz : ~ is_zero_vector u).
  { intros H. apply is_zero_vector_vec2 in H. destruct H as [H _].
    revert H. qc_decide. }
  assert (Sx : Matrix.shape x <> (2, 1)) by discriminate.
  split; [exact Hu|]. split; [exact Hnz|]. split; [exact Sx|].
  exact (reject_reports_x_after_guard Hu Hnz Sx).
Defined.

(** ** Rejection, continued *)

Lemma scaled_reference_nonzero (s u0 u1 : Qc) :
  s <> 0%Qc -> (u0 * u0 + u1 * u1)%Qc <> 0%Qc ->
  (s * u0 * (s * u0) + s * u1 * (s * u1))%Qc <> 0%Qc.
Proof.
  intros Hs Hnz H. apply Qc_sum_squares_zero in H. destruct H as [H0 H1].
  apply (Qcmult_integral_l _ _ Hs) in H0, H1. subst. apply Hnz. ring.
Qed.

(** X8: on rational entries, applying [reject] to its own result negates
    it, and applying it to the negation gives the result back:
    [reject(., u)] is not idempotent unless the result is zero. *)
Theorem reject_twice_negates (x u : Vector) :
  is_vector x -> is_vector u -> ~ is_zero_vector u ->
  exists r, reject x u = Ok r /\
            reject r u = Ok (Matrix.neg r) /\
            reject (Matrix.neg r) u = Ok r.
Proof.
  intros Hx Hu Hnz.
  destruct (is_vector_cases Hx) as (x0 & x1 & ->).
  destruct (is_vector_cases Hu) as (u0 & u1 & ->).
  apply nonzero_reference in Hnz.
  rewrite (reject_vectors _ _ Hnz). eexists; split; [reflexivity|].
  rewrite neg_vec2, !(reject_vectors _ _ Hnz).
  split; apply Ok_vec2_eq; field; exact Hnz.
Qed.

Lemma reject_twice_negates_witness :
  let x := vec2 (Integer 4) (Integer 2) in
  let u := vec2 (Integer 3) (Integer 3) in
  is_vector x /\ is_vector u /\ ~ is_zero_vector u /\
  exists r, reject x u = Ok r /\
            reject r u = Ok (Matrix.neg r) /\
            reject (Matrix.neg r) u = Ok r.
Proof.
  intros x u.
  pose proof (is_vector_vec2 (Integer 4) (Integer 2)) as Hx.
  pose proof (is_vector_vec2 (Integer 3) (Integer 3)) as Hu.
  assert (Hnz : ~ is_zero_vector u).
  { intros H. apply is_zero_vector_vec2 in H. destruct H as [H _].
    revert H. qc_decide. }
  split; [exact Hx|]. split; [exact Hu|]. split; [exact Hnz|].
  exact (reject_twice_negates Hx Hu Hnz).
Defined.

(** X9: on rational entries, [reject(x, u)] depends on the direction of
    [u] only: scaling [u] by a non-zero number does not change the
    result. *)
Theorem reject_scale_invariant (s : Qc) (x u : Vector) :
  is_vector x -> is_vector u -> ~ is_zero_vector u -> s <> 0%Qc ->
  reject x (Matrix.rmul s u) = reject x u.
Proof.
  intros Hx Hu Hnz Hs.
  destruct (is_vector_cases Hx) as (x0 & x1 & ->).
  destruct (is_vector_cases Hu) as (u0 & u1 & ->).
  apply nonzero_reference in Hnz.
  rewrite rmul_vec2, (reject_vectors _ _ Hnz),
    (reject_vectors _ _ (scaled_reference_nonzero Hs Hnz)).
  pose proof (scaled_reference_nonzero Hs Hnz) as Hnz'.
  apply Ok_vec2_eq; field; repeat split; assumption.
Qed.

Lemma reject_scale_invariant_witness :
  let s := Integer 5 in
  let x := vec2 (Integer 4) (Integer 2) in
  let u := vec2 (Integer 3) (Integer 3) in
  is_vector x /\ is_vector u /\ ~ is_zero_vector u /\ s <> 0%Qc /\
  reject x (Matrix.rmul s u) = reject x u.
Proof.
  intros s x u.
  pose proof (is_vector_vec2 (Integer 4) (Integer 2)) as Hx.
  pose proof (is_vector_vec2 (Integer 3) (Integer 3)) as Hu.
  assert (Hnz : ~ is_zero_vector u).
  { intros H. apply is_zero_vector_vec2 in H. destruct H as [H _].
    revert H. qc_decide. }
  assert (Hs : s <> 0%Qc) by (unfold s; qc_decide).
  split; [exact Hx|]. split; [exact Hu|]. split; [exact Hnz|].
  split; [exact Hs|].
  exact (reject_scale_invariant Hx Hu Hnz Hs).
Defined.

(** X10: on rational entries, [reject(x, u)] is linear in [x]:
    [reject(s*x + y, u) == s*reject(x, u) + reject(y, u)]. *)
Theorem reject_linear (s : Qc) (x y u : Vector) :
  is_vector x -> is_vector y -> is_vector u -> ~ is_zero_vector u ->
  exists rx ry,
    reject x u = Ok rx /\ reject y u = Ok ry /\
    (z <- Matrix.add (Matrix.rmul s x) y ;; reject z u)
    = Matrix.add (Matrix.rmul s rx) ry.
Proof.
  intros Hx Hy Hu Hnz.
  destruct (is_vector_cases Hx) as (x0 & x1 & ->).
  destruct (is_vector_cases Hy) as (y0 & y1 & ->).
  destruct (is_vector_cases Hu) as (u0 & u1 & ->).
  apply nonzero_reference in Hnz.
  rewrite !(reject_vectors _ _ Hnz).
  do 2 eexists. do 2 (split; [reflexivity|]).
  rewrite !rmul_vec2, !add_vec2. cbn [bind].
  rewrite (reject_vectors _ _ Hnz).
  apply Ok_vec2_eq; field; exact Hnz.
Qed.

Lemma reject_linear_witness :
  let x := vec2 (Integer 4) (Integer 2) in
  let y := vec2 (Integer 1) (Integer 0) in
  let u := vec2 (Integer 3) (Integer 3) in
  is_vector x /\ is_vector y /\ is_vector u /\ ~ is_zero_vector u /\
  exists rx ry,
    reject x u = Ok rx /\ reject y u = Ok ry /\
    (z <- Matrix.add (Matrix.rmul (Integer 2) x) y ;; reject z u)
    = Matrix.add (Matrix.rmul (Integer 2) rx) ry.
Proof.
  intros x y u.
  pose proof (is_vector_vec2 (Integer 4) (Integer 2)) as Hx.
  pose proof (is_vector_vec2 (Integer 1) (Integer 0)) as Hy.
  pose proof (is_vector_vec2 (Integer 3) (Integer 3)) as Hu.
  assert (Hnz : ~ is_zero_vector u).
  { intros H. apply is_zero_vector_vec2 in H. destruct H as [H _].
    revert H. qc_decide. }
  split; [exact Hx|]. split; [exact Hy|]. split; [exact Hu|].
  split; [exact Hnz|].
  exact (reject_linear (Integer 2) Hx Hy Hu Hnz).
Defined.

(** X11: on rational entries, the squared length of [reject(x, u)] is
    [wedge(x, u)^2 / dot(u, u)]. *)
Theorem reject_squared_length (x u : Vector) :
  is_vector x -> is_vector u -> ~ is_zero_vector u ->
  exists r w uu,
    reject x u = Ok r /\ wedge x u = Ok w /\ dot u u = Ok uu /\
    dot r r = Ok (w * w / uu)%Qc.
Proof.
  intros Hx Hu Hnz.
  destruct (is_vector_cases Hx) as (x0 & x1 & ->).
  destruct (is_vector_cases Hu) as (u0 & u1 & ->).
  apply nonzero_reference in Hnz.
  rewrite (reject_vectors _ _ Hnz), wedge_vec2, !dot_vec2.
  do 3 eexists. do 3 (split; [reflexivity|]).
  rewrite dot_vec2. f_equal; field; exact Hnz.
Qed.

Lemma reject_squared_length_witness :
  let x := vec2 (Integer 4) (Integer 2) in
  let u := vec2 (Integer 3) (Integer 3) in
  is_vector x /\ is_vector u /\ ~ is_zero_vector u /\
  exists r w uu,
    reject x u = Ok r /\ wedge x u = Ok w /\ dot u u = Ok uu /\
    dot r r = Ok (w * w / uu)%Qc.
Proof.
  intros x u.
  pose proof (is_vector_vec2 (Integer 4) (Integer 2)) as Hx.
  pose proof (is_vector_vec2 (Integer 3) (Integer 3)) as Hu.
  assert (Hnz : ~ is_zero_vector u).
  { intros H. apply is_zero_vector_vec2 in H. destruct H as [H _].
    revert H. qc_decide. }
  split; [exact Hx|]. split; [exact Hu|]. split; [exact Hnz|].
  exact (reject_squared_length Hx Hu Hnz).
Defined.

(** X12: on rational entries, adding [reject(x, u)] to [x] gives the
    multiple [(dot(x, u) / dot(u, u)) * u] of [u]. *)
Theorem x_plus_reject_is_multiple_of_u (x u : Vector) :
  is_vector x -> is_vector u -> ~ is_zero_vector u ->
  exists r xu uu,
    reject x u = Ok r /\ dot x u = Ok xu /\ dot u u = Ok uu /\
    Matrix.add x r = Ok (Matrix.rmul (xu / uu)%Qc u).
Proof.
  intros Hx Hu Hnz.
  destruct (is_vector_cases Hx) as (x0 & x1 & ->).
  destruct (is_vector_cases Hu) as (u0 & u1 & ->).
  apply nonzero_reference in Hnz.
  rewrite (reject_vectors _ _ Hnz), !dot_vec2.
  do 3 eexists. do 3 (split; [reflexivity|]).
  rewrite add_vec2, rmul_vec2.
  apply Ok_vec2_eq; field; exact Hnz.
Qed.

Lemma x_plus_reject_is_multiple_of_u_witness :
  let x := vec2 (Integer 4) (Integer 2) in
  let u := vec2 (Integer 3) (Integer 3) in
  is_vector x /\ is_vector u /\ ~ is_zero_vector u /\
  exists r xu uu,
    reject x u = Ok r /\ dot x u = Ok xu /\ dot u u = Ok uu /\
    Matrix.add x r = Ok (Matrix.rmul (xu / uu)%Qc u).
Proof.
  intros x u.
  pose proof (is_vector_vec2 (Integer 4) (Integer 2)) as Hx.
  pose proof (is_vector_vec2 (Integer 3) (Integer 3)) as Hu.
  assert (Hnz : ~ is_zero_vector u).
  { intros H. apply is_zero_vector_vec2 in H. destruct H as [H _].
    revert H. qc_decide. }
  split; [exact Hx|]. split; [exact Hu|]. split; [exact Hnz|].
  exact (x_plus_reject_is_multiple_of_u Hx Hu Hnz).
Defined.

(** X13: [reject(x, u)] is the zero vector exactly when [wedge(x, u) == 0],
    that is when [x] and [u] are parallel. *)
Theorem reject_zero_iff_wedge_zero (x u : Vector) :
  is_vector x -> is_vector u -> ~ is_zero_vector u ->
  (reject x u = Ok (vec2 0%Qc 0%Qc) <-> wedge x u = Ok 0%Qc).
Proof.
  intros Hx Hu Hnz.
  destruct (is_vector_cases Hx) as (x0 & x1 & ->).
  destruct (is_vector_cases Hu) as (u0 & u1 & ->).
  apply nonzero_reference in Hnz.
  rewrite (reject_vectors _ _ Hnz), wedge_vec2.
  set (uu := (u0 * u0 + u1 * u1)%Qc) in *.
  set (w := (x0 * u1 - x1 * u0)%Qc). split.
  - intros H. apply Ok_inj, vec2_inj in H. destruct H as [H0 H1].
    assert (Hs : (uu * (w / uu) = 0)%Qc).
    { transitivity (u0 * (u0 * (w / uu)) - u1 * (- u1 * (w / uu)))%Qc;
        [unfold uu; ring|].
      rewrite H0, H1. ring. }
    rewrite Qcmult_div_r in Hs by exact Hnz. rewrite Hs. reflexivity.
  - intros H. apply Ok_inj in H. rewrite H.
    apply Ok_vec2_eq; field; exact Hnz.
Qed.

Lemma reject_zero_iff_wedge_zero_witness :
  let x := vec2 (Integer 6) (Integer 6) in
  let u := vec2 (Integer 3) (Integer 3) in
  is_vector x /\ is_vector u /\ ~ is_zero_vector u /\
  wedge x u = Ok 0%Qc /\ reject x u = Ok (vec2 0%Qc 0%Qc).
Proof.
  intros x u.
  pose proof (is_vector_vec2 (Integer 6) (Integer 6)) as Hx.
  pose proof (is_vector_vec2 (Integer 3) (Integer 3)) as Hu.
  assert (Hnz : ~ is_zero_vector u).
  { intros H. apply is_zero_vector_vec2 in H. destruct H as [H _].
    revert H. qc_decide. }
  assert (Hw : wedge x u = Ok 0%Qc)
    by (unfold x, u; rewrite wedge_vec2; f_equal; qc_decide).
  split; [exact Hx|]. split; [exact Hu|]. split; [exact Hnz|].
  split; [exact Hw|].
  exact (proj2 (reject_zero_iff_wedge_zero Hx Hu Hnz) Hw).
Defined.

(** ** Projection and the products, continued *)

(** X14: [project(u, v)] raises [ZeroDivisionError] as soon as one of the
    two 2-D column vectors is the zero vector; projecting the zero vector
    does not return the zero vector. *)
Theorem project_zero_vector_raises (u v : Vector) :
  is_vector u -> is_vector v -> is_zero_vector u \/ is_zero_vector v ->
  project u v =
    Raise (ZeroDivisionError "Cannot project onto the zero vector.").
Proof.
  intros Hu Hv Hz.
  destruct (is_vector_cases Hu) as (u0 & u1 & ->).
  destruct (is_vector_cases Hv) as (v0 & v1 & ->).
  rewrite project_vec2. cbv zeta.
  assert (Hd : (u0 * v0 + u1 * v1 = 0)%Qc).
  { destruct Hz as [Hz|Hz]; apply is_zero_vector_vec2 in Hz;
      destruct Hz as [-> ->]; ring. }
  rewrite (proj2 (Qc_eq_bool_true_iff _ _) Hd). reflexivity.
Qed.

Lemma project_zero_vector_raises_witness :
  let u := vec2 0%Qc 0%Qc in
  let v := vec2 (Integer 3) (Integer 3) in
  is_vector u /\ is_vector v /\ (is_zero_vector u \/ is_zero_vector v) /\
  project u v =
    Raise (ZeroDivisionError "Cannot project onto the zero vector.").
Proof.
  intros u v.
  pose proof (is_vector_vec2 0%Qc 0%Qc) as Hu.
  pose proof (is_vector_vec2 (Integer 3) (Integer 3)) as Hv.
  assert (Hz : is_zero_vector u \/ is_zero_vector v).
  { left. apply is_zero_vector_vec2. split; reflexivity. }
  split; [exact Hu|]. split; [exact Hv|]. split; [exact Hz|].
  exact (project_zero_vector_raises Hu Hv Hz).
Defined.

(** X15: on rational entries, [dot], [wedge] and [geometric_prod_vec] are
    linear in their first argument: on [s*a + b] and [c] they return [s]
    times their value on [a] and [c] plus their value on [b] and [c]. *)
Theorem products_linear_in_first_argument (s : Qc) (a b c : Vector) :
  is_vector a -> is_vector b -> is_vector c ->
  exists da db wa wb,
    dot a c = Ok da /\ dot b c = Ok db /\
    wedge a c = Ok wa /\ wedge b c = Ok wb /\
    (z <- Matrix.add (Matrix.rmul s a) b ;; dot z c)
    = Ok (s * da + db)%Qc /\
    (z <- Matrix.add (Matrix.rmul s a) b ;; wedge z c)
    = Ok (s * wa + wb)%Qc /\
    (z <- Matrix.add (Matrix.rmul s a) b ;; geometric_prod_vec z c)
    = Ok (s * (da + wa) + (db + wb))%Qc.
Proof.
  intros Ha Hb Hc.
  destruct (is_vector_cases Ha) as (a0 & a1 & ->).
  destruct (is_vector_cases Hb) as (b0 & b1 & ->).
  destruct (is_vector_cases Hc) as (c0 & c1 & ->).
  rewrite !dot_vec2, !wedge_vec2.
  do 4 eexists. do 4 (split; [reflexivity|]).
  rewrite rmul_vec2, add_vec2. cbn [bind]. unfold geometric_prod_vec.
  rewrite dot_vec2, wedge_vec2. cbn [bind].
  repeat split; f_equal; ring.
Qed.

Lemma products_linear_in_first_argument_witness :
  let a := vec2 (Integer 1) (Integer 0) in
  let b := vec2 (Integer 0) (Integer 1) in
  let c := vec2 (Integer 3) (Integer 3) in
  is_vector a /\ is_vector b /\ is_vector c /\
  exists da db wa wb,
    dot a c = Ok da /\ dot b c = Ok db /\
    wedge a c = Ok wa /\ wedge b c = Ok wb /\
    (z <- Matrix.add (Matrix.rmul (Integer 4) a) b ;; dot z c)
    = Ok (Integer 4 * da + db)%Qc /\
    (z <- Matrix.add (Matrix.rmul (Integer 4) a) b ;; wedge z c)
    = Ok (Integer 4 * wa + wb)%Qc /\
    (z <- Matrix.add (Matrix.rmul (Integer 4) a) b ;; geometric_prod_vec z c)
    = Ok (Integer 4 * (da + wa) + (db + wb))%Qc.
Proof.
  intros a b c.
  pose proof (is_vector_vec2 (Integer 1) (Integer 0)) as Ha.
  pose proof (is_vector_vec2 (Integer 0) (Integer 1)) as Hb.
  pose proof (is_vector_vec2 (Integer 3) (Integer 3)) as Hc.
  split; [exact Ha|]. split; [exact Hb|]. split; [exact Hc|].
  exact (products_linear_in_first_argument (Integer 4) Ha Hb Hc).
Defined.

(** X16: on rational entries, the two orders of the geometric product add
    up to twice the dot product and differ by twice the wedge product; the
    geometric product of a vector with itself is its dot product with
    itself. *)
Theorem geometric_prod_vec_parts (a b : Vector) :
  is_vector a -> is_vector b ->
  exists g g' d w,
    geometric_prod_vec a b = Ok g /\ geometric_prod_vec b a = Ok g' /\
    dot a b = Ok d /\ wedge a b = Ok w /\
    (g + g' = (1 + 1) * d)%Qc /\ (g - g' = (1 + 1) * w)%Qc /\
    geometric_prod_vec a a = dot a a.
Proof.
  intros Ha Hb.
  destruct (is_vector_cases Ha) as (a0 & a1 & ->).
  destruct (is_vector_cases Hb) as (b0 & b1 & ->).
  unfold geometric_prod_vec. rewrite !dot_vec2, !wedge_vec2. cbn [bind].
  do 4 eexists. do 4 (split; [reflexivity|]).
  split; [ring|]. split; [ring|]. f_equal; ring.
Qed.

Lemma geometric_prod_vec_parts_witness :
  let a := vec2 (Integer 4) (Integer 2) in
  let b := vec2 (Integer 3) (Integer 3) in
  is_vector a /\ is_vector b /\
  exists g g' d w,
    geometric_prod_vec a b = Ok g /\ geometric_prod_vec b a = Ok g' /\
    dot a b = Ok d /\ wedge a b = Ok w /\
    (g + g' = (1 + 1) * d)%Qc /\ (g - g' = (1 + 1) * w)%Qc /\
    geometric_prod_vec a a = dot a a.
Proof.
  intros a b.
  pose proof (is_vector_vec2 (Integer 4) (Integer 2)) as Ha.
  pose proof (is_vector_vec2 (Integer 3) (Integer 3)) as Hb.
  split; [exact Ha|]. split; [exact Hb|].
  exact (geometric_prod_vec_parts Ha Hb).
Defined.

(** * Float entries: what rounding does to the exact equations *)

(** The equations proved above for rational entries that need more than
    commutativity are lost on [Float] entries, where each operation rounds.
    Each lemma below evaluates the module on float vectors and shows the two
    sides of one equation apart. *)

(** Decides a closed statement about float results. *)
Ltac float_decide :=
  vm_compute;
  repeat match goal with
         | |- _ /\ _ => split
         | |- _ = _ => reflexivity
         | |- _ <> _ => let H := fresh in intros H; discriminate H
         | |- _ = _ -> False => let H := fresh in intros H; discriminate H
         end.

(** C1 fails on float entries: for [u = (0.1, 0.2)] and [v = (0.3, 0.4)],
    [dot(u, v)] is not zero and [project(u, v)] returns
    [(0.10000000000000002, 0.20000000000000004)], one unit in the last place
    above [u] in both entries. *)
Lemma project_float_entries_not_exact :
  let u := FloatEntries.vec2 (FloatEntries.decimal 1 10)
                             (FloatEntries.decimal 2 10) in
  let v := FloatEntries.vec2 (FloatEntries.decimal 3 10)
                             (FloatEntries.decimal 4 10) in
  FloatEntries.is_vector u /\ FloatEntries.is_vector v /\
  FloatEntries.dot u v <> Ok (FloatEntries.of_Z 0) /\
  u = FloatEntries.vec2 (S754_finite false 7205759403792794 (-56))
                        (S754_finite false 7205759403792794 (-55)) /\
  FloatEntries.project u v =
    Ok (FloatEntries.vec2 (S754_finite false 7205759403792795 (-56))
                          (S754_finite false 7205759403792795 (-55))) /\
  FloatEntries.project u v <> Ok u.
Proof. float_decide. Qed.

(** C9 fails on float entries: for [x = (0.1, 0.1)] and [u = (0.1, 0.3)],
    [dot(u, u)] is not zero and [dot(reject(x, u), u)] is [2^-60], about
    [8.67e-19], not zero. *)
Lemma reject_float_entries_not_perpendicular :
  let x := FloatEntries.vec2 (FloatEntries.decimal 1 10)
                             (FloatEntries.decimal 1 10) in
  let u := FloatEntries.vec2 (FloatEntries.decimal 1 10)
                             (FloatEntries.decimal 3 10) in
  FloatEntries.is_vector x /\ FloatEntries.is_vector u /\
  FloatEntries.dot u u <> Ok (FloatEntries.of_Z 0) /\
  (r <- FloatEntries.reject x u ;; FloatEntries.dot r u)
  = Ok (S754_finite false 4503599627370496 (-112)) /\
  (r <- FloatEntries.reject x u ;; FloatEntries.dot r u)
  <> Ok (FloatEntries.of_Z 0).
Proof. float_decide. Qed.

(** Lagrange's identity: for [a = (0.1, 0.1)] and [b = (0.1, 0.3)] the two
    sides are [0.002] and [0.0020000000000000005]. *)
Lemma lagrange_float_entries_rounds :
  let a := FloatEntries.vec2 (FloatEntries.decimal 1 10)
                             (FloatEntries.decimal 1 10) in
  let b := FloatEntries.vec2 (FloatEntries.decimal 1 10)
                             (FloatEntries.decimal 3 10) in
  (d <- FloatEntries.dot a b ;; w <- FloatEntries.wedge a b ;;
   Ok (FloatEntries.fadd (FloatEntries.fmul d d) (FloatEntries.fmul w w)))
  <> (aa <- FloatEntries.dot a a ;; bb <- FloatEntries.dot b b ;;
      Ok (FloatEntries.fmul aa bb)).
Proof. float_decide. Qed.

(** [reject] twice: for [x = (0.1, 0.1)] and [u = (0.1, 0.3)],
    [reject(reject(x, u), u)] is not [-reject(x, u)]. *)
Lemma reject_twice_float_entries_rounds :
  let x := FloatEntries.vec2 (FloatEntries.decimal 1 10)
                             (FloatEntries.decimal 1 10) in
  let u := FloatEntries.vec2 (FloatEntries.decimal 1 10)
                             (FloatEntries.decimal 3 10) in
  (r <- FloatEntries.reject x u ;; FloatEntries.reject r u)
  <> (r <- FloatEntries.reject x u ;; Ok (FloatEntries.Matrix.neg r)).
Proof. float_decide. Qed.

(** Scaling the reference vector: for [x = (0.1, 0.1)] and
    [u = (0.1, 0.3)], [reject(x, 5*u)] is not [reject(x, u)]. *)
Lemma reject_scale_float_entries_rounds :
  let x := FloatEntries.vec2 (FloatEntries.decimal 1 10)
                             (FloatEntries.decimal 1 10) in
  let u := FloatEntries.vec2 (FloatEntries.decimal 1 10)
                             (FloatEntries.decimal 3 10) in
  FloatEntries.reject
    x (FloatEntries.Matrix.rmul (FloatEntries.of_Z 5) u)
  <> FloatEntries.reject x u.
Proof. float_decide. Qed.

(** Linearity of [reject]: for [x = (0.1, 0.1)], [y = (0.2, 0.7)] and
    [u = (0.1, 0.3)], [reject(3*x + y, u)] is not
    [3*reject(x, u) + reject(y, u)]. *)
Lemma reject_linear_float_entries_rounds :
  let x := FloatEntries.vec2 (FloatEntries.decimal 1 10)
                             (FloatEntries.decimal 1 10) in
  let y := FloatEntries.vec2 (FloatEntries.decimal 2 10)
                             (FloatEntries.decimal 7 10) in
  let u := FloatEntries.vec2 (FloatEntries.decimal 1 10)
                             (FloatEntries.decimal 3 10) in
  (z <- FloatEntries.Matrix.add
          (FloatEntries.Matrix.rmul (FloatEntries.of_Z 3) x) y ;;
   FloatEntries.reject z u)
  <> (rx <- FloatEntries.reject x u ;; ry <- FloatEntries.reject y u ;;
      FloatEntries.Matrix.add
        (FloatEntries.Matrix.rmul (FloatEntries.of_Z 3) rx) ry).
Proof. float_decide. Qed.

(** Squared length of [reject]: for [x = (0.3, 0.1)] and [u = (0.1, 0.2)],
    [dot(r, r)] is not [wedge(x, u)^2 / dot(u, u)]. *)
Lemma reject_length_float_entries_rounds :
  let x := FloatEntries.vec2 (FloatEntries.decimal 3 10)
                             (FloatEntries.decimal 1 10) in
  let u := FloatEntries.vec2 (FloatEntries.decimal 1 10)
                             (FloatEntries.decimal 2 10) in
  (r <- FloatEntries.reject x u ;; FloatEntries.dot r r)
  <> (w <- FloatEntries.wedge x u ;; uu <- FloatEntries.dot u u ;;
      Ok (FloatEntries.fdiv (FloatEntries.fmul w w) uu)).
Proof. float_decide. Qed.

(** [x + reject(x, u)]: for [x = (0.1, 0.1)] and [u = (0.1, 0.3)] it is not
    [(dot(x, u) / dot(u, u)) * u]. *)
Lemma x_plus_reject_float_entries_rounds :
  let x := FloatEntries.vec2 (FloatEntries.decimal 1 10)
                             (FloatEntries.decimal 1 10) in
  let u := FloatEntries.vec2 (FloatEntries.decimal 1 10)
                             (FloatEntries.decimal 3 10) in
  (r <- FloatEntries.reject x u ;; FloatEntries.Matrix.add x r)
  <> (xu <- FloatEntries.dot x u ;; uu <- FloatEntries.dot u u ;;
      Ok (FloatEntries.Matrix.rmul (FloatEntries.fdiv xu uu) u)).
Proof. float_decide. Qed.

(** Linearity of [wedge]: for [a = (0.1, 0.1)], [b = (0.2, 0.7)] and
    [c = (0.1, 0.3)], [wedge(3*a + b, c)] is not
    [3*wedge(a, c) + wedge(b, c)]. *)
Lemma wedge_linear_float_entries_rounds :
  let a := FloatEntries.vec2 (FloatEntries.decimal 1 10)
                             (FloatEntries.decimal 1 10) in
  let b := FloatEntries.vec2 (FloatEntries.decimal 2 10)
                             (FloatEntries.decimal 7 10) in
  let c := FloatEntries.vec2 (FloatEntries.decimal 1 10)
                             (FloatEntries.decimal 3 10) in
  (z <- FloatEntries.Matrix.add
          (FloatEntries.Matrix.rmul (FloatEntries.of_Z 3) a) b ;;
   FloatEntries.wedge z c)
  <> (wa <- FloatEntries.wedge a c ;; wb <- FloatEntries.wedge b c ;;
      Ok (FloatEntries.fadd (FloatEntries.fmul (FloatEntries.of_Z 3) wa) wb)).
Proof. float_decide. Qed.

(** The two orders of the geometric product: for [a = (0.1, 0.7)] and
    [b = (0.3, 0.11)], their sum is not twice [dot(a, b)]. *)
Lemma geometric_prod_float_entries_rounds :
  let a := FloatEntries.vec2 (FloatEntries.decimal 1 10)
                             (FloatEntries.decimal 7 10) in
  let b := FloatEntries.vec2 (FloatEntries.decimal 3 10)
                             (FloatEntries.decimal 11 100) in
  (g <- FloatEntries.geometric_prod_vec a b ;;
   g' <- FloatEntries.geometric_prod_vec b a ;;
   Ok (FloatEntries.fadd g g'))
  <> (d <- FloatEntries.dot a b ;;
      Ok (FloatEntries.fmul
            (FloatEntries.fadd (FloatEntries.of_Z 1) (FloatEntries.of_Z 1))
            d)).
Proof. float_decide. Qed.
